(** * Liquidity tracker: fetch, merge, upsert and backfill

    A shallow embedding of the backend scripts of the Fed liquidity tracker
    ([update_daily.py], [update_weekly.py], [fetch_nyfed.py], [fetch_fred.py],
    [backfill.py]) and the properties of its specification.

    Conventions of the embedding:
    - a Python [float] (SQLite [REAL]) is a binary64 [float]; a nullable
      reading is an [option float].  SQLite stores NaN as NULL; the readings
      of both sources are finite decimals and NaN is left out of the model;
    - a Python [dict] keyed by date strings and a table whose primary key is
      the date are finite maps [gmap string _];
    - a date string is a [string]; Python and SQLite both order strings by
      code point, here [String.compare];
    - a [datetime] is its proleptic Gregorian ordinal, an integer; the
      [OverflowError] of [datetime] past year 9999 is outside the model;
    - effects (the database file, the environment, the network, standard
      input and output) are threaded through a state-and-exception monad
      over [World];
    - the timestamp columns [created_at] and [updated_at], which the store
      maintains itself, are left out of the rows. *)

From Stdlib Require Import ZArith String Ascii List Lia.
From Stdlib Require Import Floats.PrimFloat.
From Stdlib Require OrdersEx.
From stdpp Require Import gmap strings list sorting pretty.

Local Open Scope string_scope.
Local Open Scope list_scope.
Local Open Scope Z_scope.

(** ** Python values *)

(** [bool(x)] of a float: every float but zero is true (NaN included). *)
Definition truthy_float (x : float) : bool := negb (PrimFloat.eqb x 0%float).

(** [bool(x)] of an optional float: [None] and zero are false. *)
Definition truthy (x : option float) : bool :=
  match x with
  | Some v => truthy_float v
  | None => false
  end.

(** [bool(s)] of an optional string: [None] and the empty string are false. *)
Definition truthy_str (s : option string) : bool :=
  match s with
  | Some v => negb (String.eqb v "")
  | None => false
  end.






(** The order of date strings: [<] and [<=] of Python strings, the
    comparison of SQLite's TEXT values. *)
Definition str_lt (a b : string) : Prop := String.ltb a b = true.
Definition str_le (a b : string) : Prop := String.leb a b = true.
Definition str_ge (a b : string) : Prop := str_le b a.

#[global] Instance str_lt_dec a b : Decision (str_lt a b).
Proof. unfold str_lt. apply _. Defined.
#[global] Instance str_le_dec a b : Decision (str_le a b).
Proof. unfold str_le. apply _. Defined.
#[global] Instance str_ge_dec a b : Decision (str_ge a b).
Proof. unfold str_ge. apply _. Defined.

(** ** Exceptions and the world *)

(** The failures of [requests]: every one is a [RequestException]. *)
Inductive RequestException :=
| ConnectionError (msg : string)
| Timeout (msg : string)
| HTTPError (status : Z)
| JSONDecodeError (msg : string).

(** The exceptions of the program, all subclasses of [Exception]. *)
Inductive Exn :=
| ValueError (msg : string)
| TypeError (msg : string)
| EOFError
| RequestError (e : RequestException).


Definition str_of_request_exception (e : RequestException) : string :=
  match e with
  | ConnectionError msg => msg
  | Timeout msg => msg
  | HTTPError status => pretty status +:+ " Error"
  | JSONDecodeError msg => msg
  end.

(** [str(e)], as an f-string prints it. *)
Definition str_of_exn (e : Exn) : string :=
  match e with
  | ValueError msg => msg
  | TypeError msg => msg
  | EOFError => ""
  | RequestError r => str_of_request_exception r
  end.

(** *** Rows and tables *)

(** A row of [repo_rates], without its key. *)
Record RepoRow := {
  sofr : option float;
  effr : option float;
  srf_usage : option float;
  onrrp : option float;
  sofr_iorb_spread : option float;
  effr_target_mid : option float;
  is_quarter_end_col : bool;
  is_month_end_col : bool;
}.

(** A row of [fed_weekly], without its key. *)
Record FedRow := {
  balance_sheet : option float;
  reserves : option float;
  tga : option float;
  balance_sheet_change : option float;
  reserves_change : option float;
}.

Record Database := {
  repo_rates : gmap string RepoRow;
  fed_weekly : gmap string FedRow;
}.

(** *** The network *)

Record Request := {
  url : string;
  params : list (string * string);
}.

(** A record of a NY Fed response, a [dict] read with [.get]: an absent
    key and a null value both read as [None]. *)
Record NYFedRecord := {
  effectiveDate : option string;
  percentRate : option float;
  opDate : option string;
  operationDate : option string;
  totalAmtAccepted : option float;
}.

(** The object under the [srf] or [repo] key. *)
Record OperationsDoc := {
  operations : option (list NYFedRecord);
}.

(** An entry of [observations] (FRED): the value is a string. *)
Record Observation := {
  obs_date : option string;
  obs_value : option string;
}.

(** The decoded JSON document of a response, every key optional. *)
Record Payload := {
  refRates : option (list NYFedRecord);
  srf : option OperationsDoc;
  repo : option OperationsDoc;
  observations : option (list Observation);
}.

(** What [session.get] yields: a failure of the transport, or a response
    with its status code and its body ([None] when the body is not JSON). *)
Inductive HttpOutcome :=
| Failed (e : RequestException)
| Responded (status_code : Z) (json : option Payload).

(** *** Standard output *)

(** A printed line.  The lines that format a float or the wall clock keep
    their arguments instead of the formatted text. *)
Inductive Output :=
| Text (s : string)
| InsertedWeekly (date : string) (bs res : float)
| ChangeWeekly (sign : string) (bs_change res_change : float)
| TotalTime.

Record World := {
  db_file : option Database;
  fred_api_key : option string;
  today : Z;
  network : list Request -> Request -> HttpOutcome;
  requests : list Request;
  stdin : list string;
  stdout : list Output;
}.

Definition with_db (db : option Database) (w : World) : World :=
  {| db_file := db; fred_api_key := fred_api_key w; today := today w;
     network := network w; requests := requests w; stdin := stdin w;
     stdout := stdout w |}.

Definition with_requests (rs : list Request) (w : World) : World :=
  {| db_file := db_file w; fred_api_key := fred_api_key w; today := today w;
     network := network w; requests := rs; stdin := stdin w;
     stdout := stdout w |}.


Definition with_stdout (o : list Output) (w : World) : World :=
  {| db_file := db_file w; fred_api_key := fred_api_key w; today := today w;
     network := network w; requests := requests w; stdin := stdin w;
     stdout := o |}.

(** *** The monad *)

Inductive Result (A : Type) :=
| Ok (a : A)
| Raise (e : Exn).
Arguments Ok {A} a.
Arguments Raise {A} e.

Definition M (A : Type) : Type := World -> Result A * World.

Definition ret {A} (a : A) : M A := fun w => (Ok a, w).

Definition raise {A} (e : Exn) : M A := fun w => (Raise e, w).

Definition bind {A B} (c : M A) (k : A -> M B) : M B :=
  fun w =>
    match c w with
    | (Ok a, w') => k a w'
    | (Raise e, w') => (Raise e, w')
    end.

(** [try: c except Exception as e: h e]. *)
Definition try_except {A} (c : M A) (h : Exn -> M A) : M A :=
  fun w =>
    match c w with
    | (Ok a, w') => (Ok a, w')
    | (Raise e, w') => h e w'
    end.

Notation "x <- c ;; k" := (bind c (fun x => k))
  (at level 100, c at next level, right associativity).
Notation "c ;; k" := (bind c (fun _ => k))
  (at level 100, right associativity).

Definition get_world : M World := fun w => (Ok w, w).

Definition print_line (o : Output) : M unit :=
  fun w => (Ok tt, with_stdout (stdout w ++ [o]) w).

Definition print (s : string) : M unit := print_line (Text s).

Definition when (b : bool) (c : M unit) : M unit := if b then c else ret tt.

(** [for x in l: acc = f acc x], with the effects of [f]. *)
Fixpoint for_each {A S} (f : S -> A -> M S) (l : list A) (s : S) : M S :=
  match l with
  | [] => ret s
  | x :: rest => s' <- f s x ;; for_each f rest s'
  end.

(** ** The calendar ([calendar], [datetime]) *)

Definition isleap (year : Z) : bool :=
  (year mod 4 =? 0) && (negb (year mod 100 =? 0) || (year mod 400 =? 0)).

Definition mdays (month : Z) : Z :=
  if month =? 2 then 28
  else if (month =? 4) || (month =? 6) || (month =? 9) || (month =? 11) then 30
  else 31.

(** [monthrange(year, month)[1]]: the number of days of the month. *)
Definition monthrange (year month : Z) : Z :=
  mdays month + (if (month =? 2) && isleap year then 1 else 0).

(** The fields of a [datetime] that the program reads. *)
Record datetime := {
  year : Z;
  month : Z;
  day : Z;
}.

Definition digit (c : ascii) : option Z :=
  let n := Z.of_nat (nat_of_ascii c) in
  if (48 <=? n) && (n <=? 57) then Some (n - 48) else None.

(** [%Y]: four digits. *)
Definition parse_year (s : list ascii) : option (Z * list ascii) :=
  match s with
  | a :: b :: c :: d :: rest =>
      match digit a, digit b, digit c, digit d with
      | Some a, Some b, Some c, Some d =>
          Some (((a * 10 + b) * 10 + c) * 10 + d, rest)
      | _, _, _, _ => None
      end
  | _ => None
  end.

(** [%m]: [1[0-2]|0[1-9]|[1-9]]. *)
Definition parse_month (s : list ascii) : option (Z * list ascii) :=
  match s with
  | a :: rest =>
      match digit a with
      | Some x =>
          match rest with
          | b :: rest' =>
              match digit b with
              | Some y =>
                  if (x =? 1) && (y <=? 2) then Some (10 + y, rest')
                  else if (x =? 0) && (1 <=? y) then Some (y, rest')
                  else if 1 <=? x then Some (x, rest)
                  else None
              | None => if 1 <=? x then Some (x, rest) else None
              end
          | [] => if 1 <=? x then Some (x, rest) else None
          end
      | None => None
      end
  | [] => None
  end.

(** [%d]: [3[0-1]|[1-2]\d|0[1-9]|[1-9]| [1-9]]. *)
Definition parse_day (s : list ascii) : option (Z * list ascii) :=
  match s with
  | a :: rest =>
      match digit a with
      | Some x =>
          match rest with
          | b :: rest' =>
              match digit b with
              | Some y =>
                  if (x =? 3) && (y <=? 1) then Some (30 + y, rest')
                  else if ((x =? 1) || (x =? 2)) then Some (x * 10 + y, rest')
                  else if (x =? 0) && (1 <=? y) then Some (y, rest')
                  else if 1 <=? x then Some (x, rest)
                  else None
              | None => if 1 <=? x then Some (x, rest) else None
              end
          | [] => if 1 <=? x then Some (x, rest) else None
          end
      | None =>
          if Ascii.eqb a " " then
            match rest with
            | b :: rest' =>
                match digit b with
                | Some y => if 1 <=? y then Some (y, rest') else None
                | None => None
                end
            | [] => None
            end
          else None
      end
  | [] => None
  end.

Definition expect (c : ascii) (s : list ascii) : option (list ascii) :=
  match s with
  | a :: rest => if Ascii.eqb a c then Some rest else None
  | [] => None
  end.

(** [datetime.strptime(date_str, '%Y-%m-%d')]; [None] is its [ValueError]:
    the string does not match the format, text remains after the match, or
    the fields are not a date ([datetime] has no year 0 and no February 30). *)
Definition strptime (date_str : string) : option datetime :=
  match parse_year (list_ascii_of_string date_str) with
  | Some (y, s1) =>
      match expect "-" s1 with
      | Some s2 =>
          match parse_month s2 with
          | Some (m, s3) =>
              match expect "-" s3 with
              | Some s4 =>
                  match parse_day s4 with
                  | Some (d, []) =>
                      if (1 <=? y) && (d <=? monthrange y m)
                      then Some {| year := y; month := m; day := d |}
                      else None
                  | _ => None
                  end
              | None => None
              end
          | None => None
          end
      | None => None
      end
  | None => None
  end.

(** [date.toordinal()]: January 1 of year 1 is day 1. *)
Definition days_before_year (y : Z) : Z :=
  let y1 := y - 1 in y1 * 365 + y1 / 4 - y1 / 100 + y1 / 400.

Fixpoint days_before_month_nat (y : Z) (m : nat) : Z :=
  match m with
  | O => 0
  | S k => days_before_month_nat y k + monthrange y (Z.of_nat (S k))
  end.

Definition days_before_month (y m : Z) : Z :=
  days_before_month_nat y (Z.to_nat (m - 1)).

Definition toordinal (d : datetime) : Z :=
  days_before_year (year d) + days_before_month (year d) (month d) + day d.

(** [date.fromordinal(n)]. *)
Definition fromordinal (ordinal : Z) : datetime :=
  let n := ordinal - 1 in
  let n400 := n / 146097 in
  let n := n mod 146097 in
  let n100 := n / 36524 in
  let n := n mod 36524 in
  let n4 := n / 1461 in
  let n := n mod 1461 in
  let n1 := n / 365 in
  let n := n mod 365 in
  let y := n400 * 400 + 1 + n100 * 100 + n4 * 4 + n1 in
  if (n1 =? 4) || (n100 =? 4) then {| year := y - 1; month := 12; day := 31 |}
  else
    let m := Z.shiftr (n + 50) 5 in
    let preceding := days_before_month y m in
    if n <? preceding
    then {| year := y; month := m - 1;
            day := n - (preceding - monthrange y (m - 1)) + 1 |}
    else {| year := y; month := m; day := n - preceding + 1 |}.

Definition pad2 (n : Z) : string :=
  if n <? 10 then "0" +:+ pretty n else pretty n.

Definition pad4 (n : Z) : string :=
  if n <? 10 then "000" +:+ pretty n
  else if n <? 100 then "00" +:+ pretty n
  else if n <? 1000 then "0" +:+ pretty n
  else pretty n.

(** [d.strftime('%Y-%m-%d')]; a year before 1000 is padded to four digits,
    which not every platform does. *)
Definition strftime (d : datetime) : string :=
  pad4 (year d) +:+ "-" +:+ pad2 (month d) +:+ "-" +:+ pad2 (day d).

(** The day of a date string and the date string of a day. *)
Definition parse_date (date_str : string) : option Z :=
  toordinal <$> strptime date_str.

Definition format_date (ordinal : Z) : string := strftime (fromordinal ordinal).

(** ** fetch_nyfed.py *)

Inductive Endpoint := ep_sofr | ep_effr | ep_srf | ep_onrrp.

Definition endpoint_key (endpoint : Endpoint) : string :=
  match endpoint with
  | ep_sofr => "sofr"
  | ep_effr => "effr"
  | ep_srf => "srf"
  | ep_onrrp => "onrrp"
  end.

Definition NYFED_BASE_URL : string := "https://markets.newyorkfed.org/api".

Definition ENDPOINTS (endpoint : Endpoint) : string :=
  match endpoint with
  | ep_sofr => "/rates/secured/sofr/search.json"
  | ep_effr => "/rates/unsecured/effr/search.json"
  | ep_srf => "/srf/all/search.json"
  | ep_onrrp => "/rp/reverserepo/propositions/search.json"
  end.

(** [session.get(url, params=params, timeout=30)]: the request is sent and
    logged; a failure of the transport is raised. *)
Definition session_get (u : string) (ps : list (string * string))
  : M (Z * option Payload) :=
  fun w =>
    let r := {| url := u; params := ps |} in
    let w' := with_requests (requests w ++ [r]) w in
    match network w (requests w) r with
    | Failed e => (Raise (RequestError e), w')
    | Responded status body => (Ok (status, body), w')
    end.

(** [response.raise_for_status()]. *)
Definition raise_for_status (status : Z) : M unit :=
  if (400 <=? status) && (status <? 600)
  then raise (RequestError (HTTPError status))
  else ret tt.

(** [response.json()]. *)
Definition response_json (body : option Payload) : M Payload :=
  match body with
  | Some data => ret data
  | None => raise (RequestError (JSONDecodeError "Expecting value"))
  end.

(** [except requests.exceptions.RequestException as e: h e]: any other
    exception passes through. *)
Definition except_RequestException {A} (c : M A) (h : Exn -> M A) : M A :=
  try_except c (fun e =>
    match e with
    | RequestError _ => h e
    | _ => raise e
    end).

Definition get_operations (doc : option OperationsDoc) : list NYFedRecord :=
  match doc with
  | Some d => default [] (operations d)
  | None => []
  end.

Definition fetch_data (endpoint : Endpoint) (start_date end_date : string)
  : M (list NYFedRecord) :=
  let u := NYFED_BASE_URL +:+ ENDPOINTS endpoint in
  let ps := [("startDate", start_date); ("endDate", end_date);
             ("format", "json")] in
  except_RequestException
    (response <- session_get u ps ;;
     raise_for_status (fst response) ;;
     data <- response_json (snd response) ;;
     ret (match endpoint with
          | ep_sofr | ep_effr => default [] (refRates data)
          | ep_srf => get_operations (srf data)
          | ep_onrrp => get_operations (repo data)
          end))
    (fun e =>
       print ("Error fetching " +:+ endpoint_key endpoint +:+ ": "
              +:+ str_of_exn e) ;;
       ret []).

(** The loop of the adapters: [if date and value is not None:
    result[date] = convert(float(value))]. *)
Definition collect (get_date : NYFedRecord -> option string)
    (get_value : NYFedRecord -> option float) (convert : float -> float)
    (data : list NYFedRecord) : gmap string float :=
  foldl (fun result record =>
           match get_date record, get_value record with
           | Some date, Some value =>
               if truthy_str (Some date)
               then <[date := convert value]> result
               else result
           | _, _ => result
           end) ∅ data.

Definition fetch_sofr (start_date end_date : string) : M (gmap string float) :=
  data <- fetch_data ep_sofr start_date end_date ;;
  ret (collect effectiveDate percentRate (fun rate => rate) data).

Definition fetch_effr (start_date end_date : string) : M (gmap string float) :=
  data <- fetch_data ep_effr start_date end_date ;;
  ret (collect effectiveDate percentRate (fun rate => rate) data).

Definition fetch_srf (start_date end_date : string) : M (gmap string float) :=
  data <- fetch_data ep_srf start_date end_date ;;
  ret (collect opDate totalAmtAccepted
         (fun amount => PrimFloat.div amount 1000%float) data).

Definition fetch_onrrp (start_date end_date : string) : M (gmap string float) :=
  data <- fetch_data ep_onrrp start_date end_date ;;
  ret (collect operationDate totalAmtAccepted
         (fun amount => PrimFloat.div amount 1000000000%float) data).

(** A composite record of the daily source. *)
Record RepoRecord := {
  rr_date : string;
  rr_sofr : option float;
  rr_effr : option float;
  rr_srf_usage : option float;
  rr_onrrp : option float;
}.

(** [sorted(all_dates)]. *)
Definition sorted (all_dates : gset string) : list string :=
  merge_sort str_le (elements all_dates).

(** The merge step of [fetch_repo_rates]. *)
Definition merge_repo_rates (sofr_data effr_data srf_data onrrp_data
    : gmap string float) : list RepoRecord :=
  let all_dates :=
    dom sofr_data ∪ dom effr_data ∪ dom srf_data ∪ dom onrrp_data in
  (fun date =>
     {| rr_date := date;
        rr_sofr := sofr_data !! date;
        rr_effr := effr_data !! date;
        rr_srf_usage := srf_data !! date;
        rr_onrrp := onrrp_data !! date |}) <$> sorted all_dates.



(** ** fetch_fred.py *)

(** A composite record of the weekly source; the [tga] key is present only
    when the third series was requested. *)
Record FedRecord := {
  fr_date : string;
  fr_balance_sheet : option float;
  fr_reserves : option float;
  fr_tga : option (option float);
}.

Definition FRED_BASE_URL : string := "https://api.stlouisfed.org/fred".

Inductive Series := WALCL | WRESBAL | WTREGEN.

Definition series_id (s : Series) : string :=
  match s with
  | WALCL => "WALCL"
  | WRESBAL => "WRESBAL"
  | WTREGEN => "WTREGEN"
  end.



Section Fred.

(** [float(value)] on a string; [None] is its [ValueError]. *)
Variable float_of_str : string -> option float.

Definition py_float (value : string) : M float :=
  match float_of_str value with
  | Some x => ret x
  | None =>
      raise (ValueError ("could not convert string to float: '" +:+ value
                         +:+ "'"))
  end.

Definition fetch_series (api_key : string) (series : Series)
    (start_date end_date : string) : M (gmap string float) :=
  let u := FRED_BASE_URL +:+ "/series/observations" in
  let ps := [("series_id", series_id series); ("api_key", api_key);
             ("file_type", "json"); ("observation_start", start_date);
             ("observation_end", end_date)] in
  except_RequestException
    (response <- session_get u ps ;;
     raise_for_status (fst response) ;;
     data <- response_json (snd response) ;;
     for_each (fun result obs =>
                 match obs_date obs, obs_value obs with
                 | Some date, Some value =>
                     if truthy_str (Some date) && truthy_str (Some value)
                        && negb (String.eqb value ".")
                     then x <- py_float value ;; ret (<[date := x]> result)
                     else ret result
                 | _, _ => ret result
                 end)
              (default [] (observations data)) ∅)
    (fun e =>
       print ("Error fetching " +:+ series_id series +:+ ": "
              +:+ str_of_exn e) ;;
       ret ∅).


(** The merge step of [fetch_fed_weekly]. *)
Definition merge_fed_weekly (include_tga : bool)
    (balance_sheet_data reserves_data tga_data : gmap string float)
  : list FedRecord :=
  let all_dates := dom balance_sheet_data ∪ dom reserves_data in
  let all_dates :=
    if include_tga then all_dates ∪ dom tga_data else all_dates in
  (fun date =>
     {| fr_date := date;
        fr_balance_sheet := balance_sheet_data !! date;
        fr_reserves := reserves_data !! date;
        fr_tga := if include_tga then Some (tga_data !! date) else None |})
  <$> sorted all_dates.



End Fred.

(** ** update_daily.py *)

(** The path of the database file, relative to the backend directory. *)
Definition DB_PATH : string := "fed_liquidity.db".

(** [x in [3, 6, 9, 12]]. *)
Definition in_list (x : Z) (l : list Z) : bool := existsb (Z.eqb x) l.

Definition is_quarter_end (date_str : string) : bool :=
  match strptime date_str with
  | Some date =>
      if in_list (month date) [3; 6; 9; 12]
      then
        let last_day := monthrange (year date) (month date) in
        day date =? last_day
      else false
  | None => false
  end.

Definition is_month_end (date_str : string) : bool :=
  match strptime date_str with
  | Some date =>
      let last_day := monthrange (year date) (month date) in
      day date =? last_day
  | None => false
  end.

Definition database_not_found : M unit :=
  print ("✗ Database not found: " +:+ DB_PATH) ;;
  print "Run create_database.py first".

(** The body of the loop of [upsert_repo_rates]: [cursor] is the table as
    the open connection sees it. *)
Definition upsert_repo_record (verbose : bool)
    (st : gmap string RepoRow * nat * nat) (record : RepoRecord)
  : M (gmap string RepoRow * nat * nat) :=
  let '(cursor, inserted, updated) := st in
  let date := rr_date record in
  let is_qtr_end := is_quarter_end date in
  let is_mon_end := is_month_end date in
  match cursor !! date with
  | Some row =>
      let cursor :=
        <[date := {| sofr := rr_sofr record;
                     effr := rr_effr record;
                     srf_usage := rr_srf_usage record;
                     onrrp := rr_onrrp record;
                     sofr_iorb_spread := sofr_iorb_spread row;
                     effr_target_mid := effr_target_mid row;
                     is_quarter_end_col := is_qtr_end;
                     is_month_end_col := is_mon_end |}]> cursor in
      when verbose (print ("  Updated: " +:+ date)) ;;
      ret (cursor, inserted, S updated)
  | None =>
      let cursor :=
        <[date := {| sofr := rr_sofr record;
                     effr := rr_effr record;
                     srf_usage := rr_srf_usage record;
                     onrrp := rr_onrrp record;
                     sofr_iorb_spread := None;
                     effr_target_mid := None;
                     is_quarter_end_col := is_qtr_end;
                     is_month_end_col := is_mon_end |}]> cursor in
      when verbose
        (let qtr_flag := if is_qtr_end then " [QTR END]" else "" in
         let mon_flag :=
           if is_mon_end && negb is_qtr_end then " [MONTH END]" else "" in
         print ("  Inserted: " +:+ date +:+ qtr_flag +:+ mon_flag)) ;;
      ret (cursor, S inserted, updated)
  end.

(** [conn.commit()] on the repo table. *)
Definition commit_repo_rates (cursor : gmap string RepoRow) : M unit :=
  fun w =>
    match db_file w with
    | Some db =>
        (Ok tt, with_db (Some {| repo_rates := cursor;
                                 fed_weekly := fed_weekly db |}) w)
    | None => (Ok tt, w)
    end.

Definition upsert_repo_rates (data : list RepoRecord) (verbose : bool)
  : M (nat * nat) :=
  w <- get_world ;;
  match db_file w with
  | None => database_not_found ;; ret (0%nat, 0%nat)
  | Some db =>
      st <- for_each (upsert_repo_record verbose) data
              (repo_rates db, 0%nat, 0%nat) ;;
      let '(cursor, inserted, updated) := st in
      commit_repo_rates cursor ;;
      ret (inserted, updated)
  end.

(** ** update_weekly.py *)

(** [SELECT ... WHERE date < ? ORDER BY date DESC LIMIT 1]. *)
Definition select_prev (date : string) (cursor : gmap string FedRow)
  : option (string * FedRow) :=
  head (merge_sort (fun a b => str_ge a.1 b.1)
          (filter (fun kv => str_lt kv.1 date) (map_to_list cursor))).

(** [(curr - prev) if (curr and prev) else None]. *)
Definition change (curr prev : option float) : option float :=
  if truthy curr && truthy prev then
    match curr, prev with
    | Some c, Some p => Some (PrimFloat.sub c p)
    | _, _ => None
    end
  else None.

Definition calculate_weekly_changes (cursor : gmap string FedRow)
    (date : string) : option float * option float :=
  match select_prev date cursor with
  | None => (None, None)
  | Some (_, prev_week) =>
      match cursor !! date with
      | None => (None, None)
      | Some curr_week =>
          let bs_change :=
            change (balance_sheet curr_week) (balance_sheet prev_week) in
          let res_change :=
            change (reserves curr_week) (reserves prev_week) in
          (bs_change, res_change)
      end
  end.

(** [record.get('tga')]. *)
Definition get_tga (record : FedRecord) : option float :=
  match fr_tga record with
  | Some v => v
  | None => None
  end.

Definition format_None : Exn :=
  TypeError "unsupported format string passed to NoneType.__format__".

(** [UPDATE fed_weekly SET balance_sheet_change = ?, reserves_change = ?
    WHERE date = ?]. *)
Definition set_changes (bs_change res_change : option float) (row : FedRow)
  : FedRow :=
  {| balance_sheet := balance_sheet row;
     reserves := reserves row;
     tga := tga row;
     balance_sheet_change := bs_change;
     reserves_change := res_change |}.

(** The body of the loop of [upsert_fed_weekly]. *)
Definition upsert_fed_record (verbose : bool)
    (st : gmap string FedRow * nat * nat) (record : FedRecord)
  : M (gmap string FedRow * nat * nat) :=
  let '(cursor, inserted, updated) := st in
  let date := fr_date record in
  let tga_value := get_tga record in
  st <-
    match cursor !! date with
    | Some row =>
        let cursor :=
          <[date := {| balance_sheet := fr_balance_sheet record;
                       reserves := fr_reserves record;
                       tga := tga_value;
                       balance_sheet_change := balance_sheet_change row;
                       reserves_change := reserves_change row |}]> cursor in
        when verbose (print ("  Updated: " +:+ date)) ;;
        ret (cursor, inserted, S updated)
    | None =>
        let cursor :=
          <[date := {| balance_sheet := fr_balance_sheet record;
                       reserves := fr_reserves record;
                       tga := tga_value;
                       balance_sheet_change := None;
                       reserves_change := None |}]> cursor in
        when verbose
          (match fr_balance_sheet record, fr_reserves record with
           | Some bs, Some res => print_line (InsertedWeekly date bs res)
           | _, _ => raise format_None
           end) ;;
        ret (cursor, S inserted, updated)
    end ;;
  let '(cursor, inserted, updated) := st in
  let '(bs_change, res_change) := calculate_weekly_changes cursor date in
  match bs_change, res_change with
  | None, None => ret (cursor, inserted, updated)
  | _, _ =>
      let cursor := alter (set_changes bs_change res_change) date cursor in
      when (verbose && truthy bs_change)
        (match bs_change, res_change with
         | Some bs, Some res =>
             let sign := if PrimFloat.ltb 0%float bs then "+" else "" in
             print_line (ChangeWeekly sign bs res)
         | _, _ => raise format_None
         end) ;;
      ret (cursor, inserted, updated)
  end.

(** [conn.commit()] on the weekly table. *)
Definition commit_fed_weekly (cursor : gmap string FedRow) : M unit :=
  fun w =>
    match db_file w with
    | Some db =>
        (Ok tt, with_db (Some {| repo_rates := repo_rates db;
                                 fed_weekly := cursor |}) w)
    | None => (Ok tt, w)
    end.

(** An exception inside the loop leaves the function before the commit:
    the file keeps what it held. *)
Definition upsert_fed_weekly (data : list FedRecord) (verbose : bool)
  : M (nat * nat) :=
  w <- get_world ;;
  match db_file w with
  | None => database_not_found ;; ret (0%nat, 0%nat)
  | Some db =>
      st <- for_each (upsert_fed_record verbose) data
              (fed_weekly db, 0%nat, 0%nat) ;;
      let '(cursor, inserted, updated) := st in
      commit_fed_weekly cursor ;;
      ret (inserted, updated)
  end.


Section UpdateWeekly.

Variable float_of_str : string -> option float.


End UpdateWeekly.

(** ** backfill.py *)






(** The sub-ranges [(current, chunk_end)] that the loop iterates: the loop
    without its body. *)
Fixpoint chunks (fuel : nat) (current end_ chunk_days : Z)
  : option (list (Z * Z)) :=
  if current <=? end_ then
    match fuel with
    | O => None
    | Datatypes.S fuel' =>
        let chunk_end := Z.min (current + chunk_days) end_ in
        cons (current, chunk_end)
          <$> chunks fuel' (chunk_end + 1) end_ chunk_days
    end
  else Some [].








Section BackfillInChunks.

Context {Data : Type}.
Variable fetch_func : string -> string -> M (list Data).
Variable upsert_func : list Data -> bool -> M (nat * nat).







End BackfillInChunks.





Section BackfillFed.

Variable float_of_str : string -> option float.



End BackfillFed.

(** ** Queries and sample data for the properties *)

(** [SELECT * FROM t WHERE date = ?]. *)
Definition rows_with_date {V} (date : string) (t : gmap string V)
  : list (string * V) :=
  filter (fun kv => kv.1 = date) (map_to_list t).

(** The weekly row stored for a date, if the database file exists and
    holds one. *)
Definition stored_fed_row (w : World) (date : string) : option FedRow :=
  db_file w ≫= fun db => fed_weekly db !! date.

Definition stored_repo_row (w : World) (date : string) : option RepoRow :=
  db_file w ≫= fun db => repo_rates db !! date.

Definition offline : list Request -> Request -> HttpOutcome :=
  fun _ _ => Failed (ConnectionError "Connection refused").

(** A world with an empty database, no API key and no network. *)
Definition empty_world : World :=
  {| db_file := Some {| repo_rates := ∅; fed_weekly := ∅ |};
     fred_api_key := None;
     today := 738886;
     network := offline;
     requests := [];
     stdin := [];
     stdout := [] |}.

Definition fed_record (date : string) (bs res : option float) : FedRecord :=
  {| fr_date := date; fr_balance_sheet := bs; fr_reserves := res;
     fr_tga := None |}.

Definition repo_record (date : string) (rate : option float) : RepoRecord :=
  {| rr_date := date; rr_sofr := rate; rr_effr := rate;
     rr_srf_usage := None; rr_onrrp := None |}.

(** The world after [c] has run. *)
Definition after {A} (c : M A) (w : World) : World := (c w).2.



Definition sample_record : FedRecord :=
  fed_record "2024-01-10" (Some 4%float) (Some 9%float).


(** The worlds that differ in their standard output only. *)
Definition same_but_stdout (w w' : World) : Prop :=
  db_file w' = db_file w /\ fred_api_key w' = fred_api_key w /\
  today w' = today w /\ network w' = network w /\
  requests w' = requests w /\ stdin w' = stdin w.

(** The request that [fetch_data] sends. *)
Definition nyfed_request (endpoint : Endpoint) (start_date end_date : string)
  : Request :=
  {| url := NYFED_BASE_URL +:+ ENDPOINTS endpoint;
     params := [("startDate", start_date); ("endDate", end_date);
                ("format", "json")] |}.

(** The request that [fetch_series] sends. *)
Definition fred_request (api_key : string) (series : Series)
    (start_date end_date : string) : Request :=
  {| url := FRED_BASE_URL +:+ "/series/observations";
     params := [("series_id", series_id series); ("api_key", api_key);
                ("file_type", "json"); ("observation_start", start_date);
                ("observation_end", end_date)] |}.

(** A network or parse failure of a request: the transport fails, the
    status is an error, or the body is not JSON. *)
Definition request_fails (o : HttpOutcome) : Prop :=
  match o with
  | Failed _ => True
  | Responded status body => 400 <= status < 600 \/ body = None
  end.



(** A [float] that accepts no string. *)
Definition no_float : string -> option float := fun _ => None.

(** * Properties *)

(** ** The order of date strings *)

Lemma ascii_compare_eq (a b : ascii) : Ascii.compare a b = Eq <-> a = b.
Proof.
  split; [apply Ascii.compare_eq_iff |].
  intros ->. unfold Ascii.compare. apply N.compare_refl.
Qed.

Lemma ascii_compare_lt_trans (a b c : ascii) :
  Ascii.compare a b = Lt -> Ascii.compare b c = Lt -> Ascii.compare a c = Lt.
Proof.
  unfold Ascii.compare. rewrite !N.compare_lt_iff. lia.
Qed.

Lemma str_compare_refl (a : string) : String.compare a a = Eq.
Proof.
  induction a as [|c a IH]; simpl; [done |].
  by rewrite (proj2 (ascii_compare_eq c c) eq_refl).
Qed.

Lemma str_compare_lt_trans (a b c : string) :
  String.compare a b = Lt -> String.compare b c = Lt ->
  String.compare a c = Lt.
Proof.
  revert b c. induction a as [|x a IH]; intros [|y b] [|z c]; simpl;
    try done.
  destruct (Ascii.compare x y) eqn:Hxy; try done.
  - apply ascii_compare_eq in Hxy as ->.
    destruct (Ascii.compare y z); try done. apply IH.
  - intros _. destruct (Ascii.compare y z) eqn:Hyz; try done.
    + apply ascii_compare_eq in Hyz as <-. by rewrite Hxy.
    + by rewrite (ascii_compare_lt_trans x y z).
Qed.

Lemma str_lt_irrefl (a : string) : ~ str_lt a a.
Proof. unfold str_lt, String.ltb. by rewrite str_compare_refl. Qed.

Lemma str_lt_trans (a b c : string) : str_lt a b -> str_lt b c -> str_lt a c.
Proof.
  unfold str_lt, String.ltb.
  destruct (String.compare a b) eqn:Hab; try done.
  destruct (String.compare b c) eqn:Hbc; try done.
  by rewrite (str_compare_lt_trans a b c).
Qed.

Lemma str_le_lt_or_eq (a b : string) : str_le a b <-> str_lt a b \/ a = b.
Proof.
  unfold str_le, str_lt, String.leb, String.ltb. split.
  - destruct (String.compare a b) eqn:H; try done; [| by left].
    right. by apply String.compare_eq_iff.
  - intros [H | ->]; [by destruct (String.compare a b) |].
    by rewrite str_compare_refl.
Qed.

Lemma str_le_refl (a : string) : str_le a a.
Proof. apply str_le_lt_or_eq. by right. Qed.

Lemma str_le_antisym (a b : string) : str_le a b -> str_le b a -> a = b.
Proof. apply String.leb_antisym. Qed.

Lemma str_le_total (a b : string) : str_le a b \/ str_le b a.
Proof. apply String.leb_total. Qed.

Lemma str_le_trans (a b c : string) : str_le a b -> str_le b c -> str_le a c.
Proof.
  rewrite !str_le_lt_or_eq. intros [H1 | ->] [H2 | ->]; eauto.
  left. by apply (str_lt_trans a b c).
Qed.

Lemma str_lt_le_ne (a b : string) : str_lt a b <-> str_le a b /\ a <> b.
Proof.
  rewrite str_le_lt_or_eq. split.
  - intros H. split; [by left |]. intros ->. by apply (str_lt_irrefl b).
  - by intros [[H | H] Hne].
Qed.

Lemma str_le_lt_trans (a b c : string) :
  str_le a b -> str_lt b c -> str_lt a c.
Proof.
  rewrite str_le_lt_or_eq. intros [H | ->] H2; [| done].
  by apply (str_lt_trans a b c).
Qed.

#[local] Instance str_le_Total : Total str_le.
Proof. intros a b. apply str_le_total. Qed.

#[local] Instance str_le_Transitive : Transitive str_le.
Proof. intros a b c. apply str_le_trans. Qed.

#[local] Instance str_le_AntiSymm : AntiSymm eq str_le.
Proof. intros a b. apply str_le_antisym. Qed.

(** ** The previous stored row *)

(** [select_prev] is the stored row with the greatest date strictly before
    [date], whatever the gap between the two dates. *)
Lemma select_prev_Some (date : string) (cursor : gmap string FedRow)
    (k : string) (row : FedRow) :
  select_prev date cursor = Some (k, row) <->
  cursor !! k = Some row /\ str_lt k date /\
  (forall k', is_Some (cursor !! k') -> str_lt k' date -> str_le k' k).
Proof.
  unfold select_prev.
  set (R := fun a b : string * FedRow => str_ge a.1 b.1).
  set (l := filter (fun kv : string * FedRow => str_lt kv.1 date)
              (map_to_list cursor)).
  assert (HT : Transitive R).
  { intros a b c Hab Hbc. unfold R, str_ge in *. by etrans. }
  assert (Htot : Total R).
  { intros a b. unfold R, str_ge. destruct (str_le_total a.1 b.1); eauto. }
  pose proof (StronglySorted_merge_sort R l) as Hs.
  pose proof (merge_sort_Permutation R l) as Hp.
  assert (Hl : forall kv, kv ∈ merge_sort R l <->
                 cursor !! kv.1 = Some kv.2 /\ str_lt kv.1 date).
  { intros [k' r']. rewrite Hp. unfold l. rewrite list_elem_of_filter.
    rewrite elem_of_map_to_list. simpl. tauto. }
  destruct (merge_sort R l) as [|[k0 r0] rest] eqn:Hm; simpl.
  - split; [done |]. intros (Hk & Hlt & _).
    assert (Hin : (k, row) ∈ @nil (string * FedRow)) by by apply Hl.
    by apply elem_of_nil in Hin.
  - apply StronglySorted_inv in Hs as [_ Hall].
    rewrite Forall_forall in Hall.
    assert (H0 : cursor !! k0 = Some r0 /\ str_lt k0 date).
    { apply (Hl (k0, r0)). by left. }
    assert (Hmax : forall k', is_Some (cursor !! k') -> str_lt k' date ->
                     str_le k' k0).
    { intros k' [r' Hr'] Hlt.
      assert (Hin : (k', r') ∈ (k0, r0) :: rest) by by apply Hl.
      apply elem_of_cons in Hin as [Heq | Hin].
      - injection Heq as -> ->. apply str_le_refl.
      - apply (Hall _ Hin). }
    split.
    + intros [= <- <-]. destruct H0. done.
    + intros (Hk & Hlt & Hmx). destruct H0 as [Hk0 Hlt0].
      assert (k = k0) as ->.
      { apply str_le_antisym; [apply Hmax | apply Hmx]; eauto. }
      congruence.
Qed.

Lemma select_prev_None (date : string) (cursor : gmap string FedRow) :
  select_prev date cursor = None <->
  (forall k, is_Some (cursor !! k) -> ~ str_lt k date).
Proof.
  split.
  - intros Hn k [r Hr] Hlt.
    unfold select_prev in Hn.
    set (R := fun a b : string * FedRow => str_ge a.1 b.1) in *.
    set (l := filter (fun kv : string * FedRow => str_lt kv.1 date)
                (map_to_list cursor)) in *.
    assert (Hin : (k, r) ∈ merge_sort R l).
    { rewrite (merge_sort_Permutation R l). unfold l.
      apply list_elem_of_filter. split; [done |].
      by apply elem_of_map_to_list. }
    destruct (merge_sort R l); [by apply elem_of_nil in Hin | done].
  - intros H. destruct (select_prev date cursor) as [[k r]|] eqn:E; [| done].
    apply select_prev_Some in E as (Hk & Hlt & _).
    exfalso. by apply (H k).
Qed.

(** Only the rows before [date] matter. *)
Lemma select_prev_ext (date : string) (m1 m2 : gmap string FedRow) :
  (forall k, str_lt k date -> m1 !! k = m2 !! k) ->
  select_prev date m1 = select_prev date m2.
Proof.
  intros Hext.
  destruct (select_prev date m2) as [[k r]|] eqn:E.
  - apply select_prev_Some in E as (Hk & Hlt & Hmax).
    apply select_prev_Some. split_and!; [| done |].
    + by rewrite Hext.
    + intros k' Hk' Hlt'. apply Hmax; [| done]. by rewrite <- Hext.
  - rewrite select_prev_None in E. apply select_prev_None.
    intros k Hk Hlt. apply (E k); [| done]. by rewrite <- Hext.
Qed.

(** The row of [date] itself is not before [date]: writing it does not
    change the previous row. *)
Lemma select_prev_insert (date : string) (row : FedRow)
    (cursor : gmap string FedRow) :
  select_prev date (<[date := row]> cursor) = select_prev date cursor.
Proof.
  apply select_prev_ext. intros k Hlt.
  rewrite lookup_insert_ne; [done |].
  intros <-. by apply (str_lt_irrefl date).
Qed.

Lemma select_prev_alter (f : FedRow -> FedRow) (date : string)
    (cursor : gmap string FedRow) :
  select_prev date (alter f date cursor) = select_prev date cursor.
Proof.
  apply select_prev_ext. intros k Hlt.
  rewrite lookup_alter_ne; [done |].
  intros <-. by apply (str_lt_irrefl date).
Qed.

(** ** The weekly upsert, one record *)

(** The two changes, read off the previous stored row and the record. *)
Lemma calculate_weekly_changes_written (cursor : gmap string FedRow)
    (date : string) (row : FedRow) :
  calculate_weekly_changes (<[date := row]> cursor) date =
  match select_prev date cursor with
  | None => (None, None)
  | Some (_, prev_week) =>
      (change (balance_sheet row) (balance_sheet prev_week),
       change (reserves row) (reserves prev_week))
  end.
Proof.
  unfold calculate_weekly_changes.
  rewrite select_prev_insert, lookup_insert_eq.
  by destruct (select_prev date cursor) as [[k p]|].
Qed.

Lemma change_Some (curr prev : option float) (c p : float) :
  curr = Some c -> prev = Some p ->
  truthy_float c = true -> truthy_float p = true ->
  change curr prev = Some (PrimFloat.sub c p).
Proof. intros -> -> Hc Hp. unfold change. simpl. by rewrite Hc, Hp. Qed.

Lemma change_None_l (prev : option float) : change None prev = None.
Proof. done. Qed.


(** What a completed step of the loop leaves in the table. *)
Lemma upsert_fed_record_Ok (verbose : bool) (cursor : gmap string FedRow)
    (i u : nat) (record : FedRecord) (w : World)
    (cursor' : gmap string FedRow) (i' u' : nat) (w' : World) :
  upsert_fed_record verbose (cursor, i, u) record w
  = (Ok (cursor', i', u'), w') ->
  let date := fr_date record in
  let changes :=
    match select_prev date cursor with
    | None => (None, None)
    | Some (_, prev_week) =>
        (change (fr_balance_sheet record) (balance_sheet prev_week),
         change (fr_reserves record) (reserves prev_week))
    end in
  exists row',
    cursor' !! date = Some row' /\
    balance_sheet row' = fr_balance_sheet record /\
    reserves row' = fr_reserves record /\
    tga row' = get_tga record /\
    (balance_sheet_change row', reserves_change row') =
      match changes with
      | (None, None) =>
          (cursor !! date ≫= balance_sheet_change,
           cursor !! date ≫= reserves_change)
      | _ => changes
      end /\
    (forall k, k <> date -> cursor' !! k = cursor !! k) /\
    (i', u') = match cursor !! date with
               | Some _ => (i, S u)
               | None => (S i, u)
               end.
Proof.
  intros Hrun date changes.
  unfold upsert_fed_record, bind in Hrun. fold date in Hrun.
  remember (cursor !! date) as old eqn:Hold.
  set (written := fun b r : option float =>
         {| balance_sheet := fr_balance_sheet record;
            reserves := fr_reserves record;
            tga := get_tga record;
            balance_sheet_change := b;
            reserves_change := r |}).
  assert (Hstep : exists w1,
    (let '(cursor1, i1, u1) :=
       (<[date := written (old ≫= balance_sheet_change)
                    (old ≫= reserves_change)]> cursor,
        match old with Some _ => i | None => S i end,
        match old with Some _ => S u | None => u end) in
     let '(bs_change, res_change) := calculate_weekly_changes cursor1 date in
     match bs_change, res_change with
     | None, None => ret (cursor1, i1, u1)
     | _, _ =>
         bind (when (verbose && truthy bs_change)
                 (match bs_change, res_change with
                  | Some bs, Some res =>
                      print_line
                        (ChangeWeekly
                           (if PrimFloat.ltb 0%float bs then "+" else "")
                           bs res)
                  | _, _ => raise format_None
                  end))
           (fun _ =>
              ret (alter (set_changes bs_change res_change) date cursor1,
                   i1, u1))
     end) w1 = (Ok (cursor', i', u'), w')).
  { clear Hold. destruct old as [row|]; simpl in *.
    - destruct verbose; simpl in Hrun; unfold bind, print, print_line in Hrun;
        simpl in Hrun; eauto.
    - destruct verbose; simpl in Hrun; unfold bind in Hrun; simpl in Hrun.
      + destruct (fr_balance_sheet record), (fr_reserves record);
          simpl in Hrun; try discriminate; eauto.
      + eauto. }
  clear Hrun. destruct Hstep as [w1 Hstep]. simpl in Hstep.
  rewrite calculate_weekly_changes_written in Hstep. simpl in Hstep.
  fold changes in Hstep.
  assert (Hres : cursor' =
            match changes with
            | (None, None) =>
                <[date := written (old ≫= balance_sheet_change)
                             (old ≫= reserves_change)]> cursor
            | (b, r) =>
                alter (set_changes b r) date
                  (<[date := written (old ≫= balance_sheet_change)
                               (old ≫= reserves_change)]> cursor)
            end /\
          (i', u') = match old with
                     | Some _ => (i, S u)
                     | None => (S i, u)
                     end).
  { destruct changes as [[b|] [r|]]; simpl in Hstep;
      unfold bind, when, ret in Hstep;
      repeat match type of Hstep with
        | context [if ?c then _ else _] => destruct c; simpl in Hstep
        end;
      unfold print_line, raise in Hstep; simpl in Hstep;
      try discriminate; injection Hstep as <- <- <- <-;
      done. }
  destruct Hres as [-> Hcount].
  destruct changes as [[b|] [r|]];
    (eexists; split;
     [first [ rewrite lookup_alter_eq, lookup_insert_eq; reflexivity
            | rewrite lookup_insert_eq; reflexivity ] |]);
    simpl; split_and!; try done;
    intros k Hk; rewrite ?lookup_alter_ne, lookup_insert_ne by done; done.
Qed.

(** With the verbose output off, a step of the loop always completes, and
    prints nothing. *)
Lemma upsert_fed_record_quiet (st : gmap string FedRow * nat * nat)
    (record : FedRecord) (w : World) :
  exists st', upsert_fed_record false st record w = (Ok st', w).
Proof.
  destruct st as [[cursor i] u].
  unfold upsert_fed_record, bind.
  destruct (cursor !! fr_date record); simpl;
    destruct (calculate_weekly_changes _ _) as [[b|] [r|]]; simpl; eauto.
Qed.

(** Supporting fact for C1: when the compared field is non-null and
    non-zero on the record and on the nearest earlier stored row, the delta
    stored is exactly the current value minus the earlier one. *)
Lemma weekly_delta_nonzero (verbose : bool) (cursor : gmap string FedRow)
    (i u : nat) (record : FedRecord) (w : World)
    (cursor' : gmap string FedRow) (i' u' : nat) (w' : World)
    (k : string) (prev : FedRow) :
  upsert_fed_record verbose (cursor, i, u) record w
  = (Ok (cursor', i', u'), w') ->
  select_prev (fr_date record) cursor = Some (k, prev) ->
  exists row',
    cursor' !! fr_date record = Some row' /\
    (forall c p, fr_balance_sheet record = Some c ->
       balance_sheet prev = Some p ->
       truthy_float c = true -> truthy_float p = true ->
       balance_sheet_change row' = Some (PrimFloat.sub c p)) /\
    (forall c p, fr_reserves record = Some c ->
       reserves prev = Some p ->
       truthy_float c = true -> truthy_float p = true ->
       reserves_change row' = Some (PrimFloat.sub c p)).
Proof.
  intros Hrun Hprev.
  apply upsert_fed_record_Ok in Hrun as (row' & Hrow & _ & _ & _ & Hch & _).
  rewrite Hprev in Hch. exists row'. split; [done |].
  split; intros c p Hc Hp Tc Tp.
  - rewrite (change_Some _ _ c p Hc Hp Tc Tp) in Hch.
    by injection Hch as -> _.
  - rewrite (change_Some (fr_reserves record) _ c p Hc Hp Tc Tp) in Hch.
    destruct (change (fr_balance_sheet record) (balance_sheet prev));
      by injection Hch as _ ->.
Qed.

(** C1 (the code departs from the claim): the store holds the row of
    2024-01-03 with a balance sheet of 5 and reserves of 7; the record of
    2024-01-10 with a balance sheet of 0 and reserves of 9 is upserted.  Both
    balance sheets are non-null and the earlier row is the nearest one, yet
    the stored balance-sheet delta is null, not 0 - 5; the reserves delta is
    9 - 7. *)
Lemma zero_reading_has_no_delta :
  let w := after (upsert_fed_weekly
                    [fed_record "2024-01-03" (Some 5%float) (Some 7%float)]
                    false) empty_world in
  let record := fed_record "2024-01-10" (Some 0%float) (Some 9%float) in
  stored_fed_row w "2024-01-03"
  = Some {| balance_sheet := Some 5%float; reserves := Some 7%float;
            tga := None; balance_sheet_change := None;
            reserves_change := None |} /\
  (upsert_fed_weekly [record] false w).1 = Ok (1%nat, 0%nat) /\
  stored_fed_row (after (upsert_fed_weekly [record] false) w) "2024-01-10"
  = Some {| balance_sheet := Some 0%float; reserves := Some 9%float;
            tga := None; balance_sheet_change := None;
            reserves_change := Some 2%float |}.
Proof. vm_compute. done. Qed.




(** ** The daily upsert *)

Lemma same_but_stdout_refl (w : World) : same_but_stdout w w.
Proof. by repeat split. Qed.

Lemma same_but_stdout_trans (w1 w2 w3 : World) :
  same_but_stdout w1 w2 -> same_but_stdout w2 w3 -> same_but_stdout w1 w3.
Proof. unfold same_but_stdout. intuition congruence. Qed.

Lemma print_spec (s : string) (w : World) :
  print s w = (Ok tt, with_stdout (stdout w ++ [Text s]) w).
Proof. done. Qed.

Lemma same_but_stdout_with_stdout (o : list Output) (w : World) :
  same_but_stdout w (with_stdout o w).
Proof. by repeat split. Qed.

Lemma when_print_spec (b : bool) (s : string) (w : World) :
  exists w', when b (print s) w = (Ok tt, w') /\ same_but_stdout w w'.
Proof.
  destruct b; simpl; eexists; (split; [reflexivity |]).
  - apply same_but_stdout_with_stdout.
  - apply same_but_stdout_refl.
Qed.

(** A step of the loop of [upsert_repo_rates] always completes: it writes
    the row of the date, with the flags of the date, and counts an update if
    the date was stored and an insert if not. *)
Lemma upsert_repo_record_Ok (verbose : bool) (cursor : gmap string RepoRow)
    (i u : nat) (record : RepoRecord) (w : World) :
  exists row w',
    upsert_repo_record verbose (cursor, i, u) record w
    = (Ok (<[rr_date record := row]> cursor,
           match cursor !! rr_date record with
           | Some _ => i
           | None => S i
           end,
           match cursor !! rr_date record with
           | Some _ => S u
           | None => u
           end), w') /\
    same_but_stdout w w' /\
    is_quarter_end_col row = is_quarter_end (rr_date record) /\
    is_month_end_col row = is_month_end (rr_date record) /\
    sofr row = rr_sofr record /\ effr row = rr_effr record /\
    srf_usage row = rr_srf_usage record /\ onrrp row = rr_onrrp record.
Proof.
  unfold upsert_repo_record, bind.
  destruct (cursor !! rr_date record) as [old|].
  - destruct (when_print_spec verbose ("  Updated: " +:+ rr_date record) w)
      as (w' & -> & Hw).
    eexists _, w'. split; [reflexivity |]. by split_and!.
  - match goal with
    | |- context [when verbose (print ?s)] =>
        destruct (when_print_spec verbose s w) as (w' & Hp & Hw)
    end.
    simpl in Hp. rewrite Hp.
    eexists _, w'. split; [reflexivity |]. by split_and!.
Qed.

(** The loop of [upsert_repo_rates] completes: each date of the batch holds
    a row with the flags of the date, the other rows are untouched, and
    every record is counted once. *)
Lemma for_each_repo (verbose : bool) (data : list RepoRecord) :
  forall (cursor : gmap string RepoRow) (i u : nat) (w : World),
  exists cursor' i' u' w',
    for_each (upsert_repo_record verbose) data (cursor, i, u) w
    = (Ok (cursor', i', u'), w') /\
    same_but_stdout w w' /\
    (i' + u' = i + u + length data)%nat /\
    (forall k, k ∈ rr_date <$> data ->
       exists row, cursor' !! k = Some row /\
         is_quarter_end_col row = is_quarter_end k /\
         is_month_end_col row = is_month_end k) /\
    (forall k, k ∉ rr_date <$> data -> cursor' !! k = cursor !! k).
Proof.
  induction data as [|r rest IH]; intros cursor i u w; cbn [for_each].
  - exists cursor, i, u, w. split; [done |].
    split; [apply same_but_stdout_refl |]. split; [simpl; lia |].
    split; [| done]. intros k Hk. by apply elem_of_nil in Hk.
  - unfold bind.
    destruct (upsert_repo_record_Ok verbose cursor i u r w)
      as (row & w1 & -> & Hw1 & Hq & Hm & _).
    destruct (IH (<[rr_date r := row]> cursor)
                (match cursor !! rr_date r with Some _ => i | None => S i end)
                (match cursor !! rr_date r with Some _ => S u | None => u end)
                w1)
      as (cursor' & i' & u' & w' & -> & Hw' & Hcount & Hin & Hout).
    exists cursor', i', u', w'. split; [done |].
    split; [by eapply same_but_stdout_trans |].
    split; [simpl in *; destruct (cursor !! rr_date r); lia |].
    split.
    + intros k Hk.
      destruct (decide (k ∈ rr_date <$> rest)) as [Hrest | Hrest];
        [by apply Hin |].
      apply elem_of_cons in Hk as [-> | Hk]; [| done].
      rewrite (Hout _ Hrest), lookup_insert_eq. by exists row.
    + intros k Hk. apply not_elem_of_cons in Hk as [Hne Hk].
      rewrite (Hout _ Hk). by rewrite lookup_insert_ne.
Qed.

(** [upsert_repo_rates] on an existing database: it completes, commits the
    table of the loop and leaves the weekly table alone. *)
Lemma upsert_repo_rates_run (data : list RepoRecord) (verbose : bool)
    (w : World) (db : Database) :
  db_file w = Some db ->
  exists cursor' i' u' w1 w',
    for_each (upsert_repo_record verbose) data
      (repo_rates db, 0%nat, 0%nat) w = (Ok (cursor', i', u'), w1) /\
    upsert_repo_rates data verbose w = (Ok (i', u'), w') /\
    db_file w' = Some {| repo_rates := cursor'; fed_weekly := fed_weekly db |}.
Proof.
  intros Hdb.
  destruct (for_each_repo verbose data (repo_rates db) 0%nat 0%nat w)
    as (cursor' & i' & u' & w1 & Hloop & Hw1 & _).
  exists cursor', i', u', w1. eexists. split; [done |].
  unfold upsert_repo_rates, bind, get_world. rewrite Hdb, Hloop.
  unfold commit_repo_rates. destruct Hw1 as [-> _]. rewrite Hdb.
  split; reflexivity.
Qed.

(** [upsert_fed_weekly] on an existing database, with the verbose output
    off: it completes and commits the table of the loop. *)
Lemma for_each_fed_quiet (data : list FedRecord) :
  forall (st : gmap string FedRow * nat * nat) (w : World),
  exists st', for_each (upsert_fed_record false) data st w = (Ok st', w).
Proof.
  induction data as [|r rest IH]; intros st w; cbn [for_each];
    [by eexists |].
  unfold bind.
  destruct (upsert_fed_record_quiet st r w) as [st1 ->]. apply IH.
Qed.

Lemma upsert_fed_weekly_run (data : list FedRecord) (w : World)
    (db : Database) :
  db_file w = Some db ->
  exists cursor' i' u' w',
    for_each (upsert_fed_record false) data (fed_weekly db, 0%nat, 0%nat) w
    = (Ok (cursor', i', u'), w) /\
    upsert_fed_weekly data false w = (Ok (i', u'), w') /\
    w' = with_db (Some {| repo_rates := repo_rates db;
                          fed_weekly := cursor' |}) w.
Proof.
  intros Hdb.
  destruct (for_each_fed_quiet data (fed_weekly db, 0%nat, 0%nat) w)
    as ([[cursor' i'] u'] & Hloop).
  exists cursor', i', u'. eexists. split; [done |].
  unfold upsert_fed_weekly, bind, get_world. rewrite Hdb, Hloop.
  unfold commit_fed_weekly. rewrite Hdb. split; reflexivity.
Qed.

Lemma filter_none {A} (P : A -> Prop) `{forall x, Decision (P x)}
    (l : list A) :
  (forall x, x ∈ l -> ~ P x) -> filter P l = [].
Proof.
  induction l as [|x l IH]; intros Hl; [done |].
  rewrite filter_cons_False by (apply Hl; by left).
  apply IH. intros y Hy. apply Hl. by right.
Qed.

(** A table holds exactly one row for a date that it stores. *)
Lemma rows_with_date_stored {V} (date : string) (t : gmap string V) (v : V) :
  t !! date = Some v -> rows_with_date date t = [(date, v)].
Proof.
  intros Hv. unfold rows_with_date.
  apply Permutation_singleton_r.
  rewrite <- (insert_delete_id t date v Hv) at 1.
  rewrite map_to_list_insert by apply lookup_delete_eq.
  rewrite filter_cons_True by done.
  apply Permutation_skip.
  rewrite filter_none; [done |].
  intros [k x] Hin Hk. simpl in Hk. subst k.
  apply elem_of_map_to_list in Hin. by rewrite lookup_delete_eq in Hin.
Qed.


Lemma for_each_single {A S} (f : S -> A -> M S) (x : A) (s : S) (w : World) :
  for_each f [x] s w = f s x w.
Proof.
  cbn [for_each]. unfold bind, ret. by destruct (f s x w) as [[s'|e] w'].
Qed.

(** C4, as stated, fails: the date 2024-03-29 is already stored when the
    record is upserted twice in succession; the first of the two calls
    counts an update, not an insert. *)
Lemma stored_date_first_call_updates :
  let w := after (upsert_repo_rates
                    [repo_record "2024-03-29" (Some 5%float)] false)
             empty_world in
  let r := repo_record "2024-03-29" (Some 6%float) in
  (upsert_repo_rates [r] false w).1 = Ok (0%nat, 1%nat) /\
  (upsert_repo_rates [r] false w).1 <> Ok (1%nat, 0%nat) /\
  (upsert_repo_rates [r] false (after (upsert_repo_rates [r] false) w)).1
  = Ok (0%nat, 1%nat).
Proof. vm_compute. done. Qed.

(** C4, amended: on an existing database, upserting the same record twice
    in succession (the weekly upsert with its verbose output off) leaves
    exactly one stored row for the date of the record; the second call
    counts an update; the first call counts an insert when the date was not
    stored before it, and an update when it was. *)
Theorem upsert_twice (w : World) (db : Database) :
  db_file w = Some db ->
  (forall (r : RepoRecord) (verbose : bool),
     exists w1 w2 db1 db2,
       upsert_repo_rates [r] verbose w
       = (Ok (match repo_rates db !! rr_date r with
              | Some _ => (0%nat, 1%nat)
              | None => (1%nat, 0%nat)
              end), w1) /\
       db_file w1 = Some db1 /\
       length (rows_with_date (rr_date r) (repo_rates db1)) = 1%nat /\
       upsert_repo_rates [r] verbose w1 = (Ok (0%nat, 1%nat), w2) /\
       db_file w2 = Some db2 /\
       length (rows_with_date (rr_date r) (repo_rates db2)) = 1%nat) /\
  (forall r : FedRecord,
     exists w1 w2 db1 db2,
       upsert_fed_weekly [r] false w
       = (Ok (match fed_weekly db !! fr_date r with
              | Some _ => (0%nat, 1%nat)
              | None => (1%nat, 0%nat)
              end), w1) /\
       db_file w1 = Some db1 /\
       length (rows_with_date (fr_date r) (fed_weekly db1)) = 1%nat /\
       upsert_fed_weekly [r] false w1 = (Ok (0%nat, 1%nat), w2) /\
       db_file w2 = Some db2 /\
       length (rows_with_date (fr_date r) (fed_weekly db2)) = 1%nat).
Proof.
  intros Hdb. split.
  - intros r verbose.
    destruct (upsert_repo_rates_run [r] verbose w db Hdb)
      as (c1 & i1 & u1 & wa & w1 & Hloop1 & Hrun1 & Hdb1).
    rewrite for_each_single in Hloop1.
    destruct (upsert_repo_record_Ok verbose (repo_rates db) 0 0 r w)
      as (row1 & wa' & Hstep1 & _).
    rewrite Hstep1 in Hloop1. injection Hloop1 as <- <- <- <-.
    destruct (upsert_repo_rates_run [r] verbose w1 _ Hdb1)
      as (c2 & i2 & u2 & wb & w2 & Hloop2 & Hrun2 & Hdb2).
    rewrite for_each_single in Hloop2. cbn [repo_rates] in Hloop2.
    destruct (upsert_repo_record_Ok verbose
                (<[rr_date r := row1]> (repo_rates db)) 0 0 r w1)
      as (row2 & wb' & Hstep2 & _).
    rewrite Hstep2 in Hloop2. rewrite lookup_insert_eq in Hloop2.
    injection Hloop2 as <- <- <- <-.
    eexists w1, _, _, _. split_and!.
    + rewrite Hrun1. by destruct (repo_rates db !! rr_date r).
    + exact Hdb1.
    + cbn [repo_rates].
      by rewrite (rows_with_date_stored _ _ row1) by apply lookup_insert_eq.
    + exact Hrun2.
    + exact Hdb2.
    + cbn [repo_rates].
      by rewrite (rows_with_date_stored _ _ row2) by apply lookup_insert_eq.
  - intros r.
    destruct (upsert_fed_weekly_run [r] w db Hdb)
      as (c1 & i1 & u1 & w1 & Hloop1 & Hrun1 & ->).
    rewrite for_each_single in Hloop1.
    destruct (upsert_fed_record_Ok _ _ _ _ _ _ _ _ _ _ Hloop1)
      as (row1 & Hrow1 & _ & _ & _ & _ & _ & Hcount1).
    set (w1 := with_db _ w) in *.
    assert (Hdb1 : db_file w1 = Some {| repo_rates := repo_rates db;
                                        fed_weekly := c1 |}) by done.
    destruct (upsert_fed_weekly_run [r] w1 _ Hdb1)
      as (c2 & i2 & u2 & w2 & Hloop2 & Hrun2 & ->).
    rewrite for_each_single in Hloop2. cbn [fed_weekly] in Hloop2.
    destruct (upsert_fed_record_Ok _ _ _ _ _ _ _ _ _ _ Hloop2)
      as (row2 & Hrow2 & _ & _ & _ & _ & _ & Hcount2).
    rewrite Hrow1 in Hcount2.
    eexists w1, _, _, _. split_and!.
    + rewrite Hrun1. rewrite Hcount1.
      by destruct (fed_weekly db !! fr_date r).
    + exact Hdb1.
    + cbn [fed_weekly]. by rewrite (rows_with_date_stored _ _ row1).
    + rewrite Hrun2. by rewrite Hcount2.
    + reflexivity.
    + cbn [fed_weekly]. by rewrite (rows_with_date_stored _ _ row2).
Qed.

Lemma upsert_twice_witness :
  db_file empty_world = Some {| repo_rates := ∅; fed_weekly := ∅ |} /\
  exists w1 w2 db1 db2,
    upsert_repo_rates [repo_record "2024-03-29" (Some 5%float)] true
      empty_world
    = (Ok (match (∅ : gmap string RepoRow) !! "2024-03-29" with
           | Some _ => (0%nat, 1%nat)
           | None => (1%nat, 0%nat)
           end), w1) /\
    db_file w1 = Some db1 /\
    length (rows_with_date "2024-03-29" (repo_rates db1)) = 1%nat /\
    upsert_repo_rates [repo_record "2024-03-29" (Some 5%float)] true w1
    = (Ok (0%nat, 1%nat), w2) /\
    db_file w2 = Some db2 /\
    length (rows_with_date "2024-03-29" (repo_rates db2)) = 1%nat.
Proof.
  split; [reflexivity |].
  exact (proj1 (upsert_twice empty_world _ eq_refl)
           (repo_record "2024-03-29" (Some 5%float)) true).
Defined.

(** With the verbose output on, the message of an insert formats the two
    readings: a null one raises [TypeError] before the commit, and the
    database keeps what it held. *)
Example verbose_insert_of_null_raises :
  upsert_fed_weekly [fed_record "2024-01-10" None (Some 2%float)] true
    empty_world
  = (Raise format_None, empty_world).
Proof. vm_compute. reflexivity. Qed.

(** ** The period-end flags *)

Example monthrange_february :
  monthrange 2024 2 = 29 /\ monthrange 2023 2 = 28 /\
  monthrange 1900 2 = 28 /\ monthrange 2000 2 = 29.
Proof. done. Qed.

Lemma in_list_quarter (m : Z) :
  in_list m [3; 6; 9; 12] = true <-> m = 3 \/ m = 6 \/ m = 9 \/ m = 12.
Proof. unfold in_list. simpl. lia. Qed.

(** C5: after [upsert_repo_rates], the row of every date of the batch that
    is a well-formed date string has its two flags set from the calendar
    date alone: both true on the last day of March, June, September or
    December, month-end only on the last day of another month, both false on
    any other day; quarter-end implies month-end.  The flags are
    [is_quarter_end] and [is_month_end] of the date string, whatever the
    readings of the record. *)
Theorem period_end_flags (data : list RepoRecord) (verbose : bool)
    (w : World) (db : Database) (r : RepoRecord) (date : datetime) :
  db_file w = Some db ->
  r ∈ data ->
  strptime (rr_date r) = Some date ->
  let last_day := monthrange (year date) (month date) in
  let quarter_month :=
    month date = 3 \/ month date = 6 \/ month date = 9 \/ month date = 12 in
  exists counts w' row,
    upsert_repo_rates data verbose w = (Ok counts, w') /\
    stored_repo_row w' (rr_date r) = Some row /\
    is_quarter_end_col row = is_quarter_end (rr_date r) /\
    is_month_end_col row = is_month_end (rr_date r) /\
    (quarter_month -> day date = last_day ->
     is_quarter_end_col row = true /\ is_month_end_col row = true) /\
    (~ quarter_month -> day date = last_day ->
     is_quarter_end_col row = false /\ is_month_end_col row = true) /\
    (day date <> last_day ->
     is_quarter_end_col row = false /\ is_month_end_col row = false) /\
    (is_quarter_end_col row = true -> is_month_end_col row = true).
Proof.
  intros Hdb Hr Hdate last_day quarter_month.
  destruct (upsert_repo_rates_run data verbose w db Hdb)
    as (cursor' & i' & u' & w1 & w' & Hloop & Hrun & Hdb').
  destruct (for_each_repo verbose data (repo_rates db) 0%nat 0%nat w)
    as (c & i & u & w2 & Hloop' & _ & _ & Hin & _).
  rewrite Hloop in Hloop'. injection Hloop' as <- <- <- <-.
  destruct (Hin (rr_date r)) as (row & Hrow & Hq & Hm).
  { apply list_elem_of_fmap. by exists r. }
  eexists _, _, row. split; [exact Hrun |].
  split; [unfold stored_repo_row; by rewrite Hdb' |].
  split; [done |]. split; [done |].
  rewrite Hq, Hm. unfold is_quarter_end, is_month_end. rewrite Hdate.
  fold last_day.
  destruct (in_list (month date) [3; 6; 9; 12]) eqn:Hin4.
  - apply in_list_quarter in Hin4. fold quarter_month in Hin4.
    split_and!; try tauto; intros; split; lia.
  - assert (~ quarter_month).
    { intros Hqm. apply in_list_quarter in Hqm. congruence. }
    split_and!; try tauto; try done; intros; split; lia.
Qed.

Lemma period_end_flags_witness :
  exists counts w' row,
    upsert_repo_rates [repo_record "2024-03-31" None] false empty_world
    = (Ok counts, w') /\
    stored_repo_row w' "2024-03-31" = Some row /\
    is_quarter_end_col row = true /\ is_month_end_col row = true.
Proof.
  destruct (period_end_flags [repo_record "2024-03-31" None] false
              empty_world _ (repo_record "2024-03-31" None)
              {| year := 2024; month := 3; day := 31 |}
              eq_refl ltac:(by left) ltac:(vm_compute; reflexivity))
    as (counts & w' & row & Hrun & Hrow & _ & _ & Hq & _).
  exists counts, w', row. split; [exact Hrun |]. split; [exact Hrow |].
  apply Hq; [left; reflexivity | reflexivity].
Defined.

(** The flags of a string that is not a date are both false. *)
Lemma flags_of_malformed_date (date_str : string) :
  strptime date_str = None ->
  is_quarter_end date_str = false /\ is_month_end date_str = false.
Proof. intros H. unfold is_quarter_end, is_month_end. by rewrite H. Qed.

(** ** The missing database file *)

(** C10: when the database file does not exist, both upserts return
    [(0, 0)] without raising, whatever the records; no file appears and
    nothing but the two lines of the message changes in the world. *)
Theorem upsert_without_database (repo_data : list RepoRecord)
    (fed_data : list FedRecord) (verbose : bool) (w : World) :
  db_file w = None ->
  let w' := with_stdout
              (stdout w ++ [Text ("✗ Database not found: " +:+ DB_PATH);
                            Text "Run create_database.py first"]) w in
  upsert_repo_rates repo_data verbose w = (Ok (0%nat, 0%nat), w') /\
  upsert_fed_weekly fed_data verbose w = (Ok (0%nat, 0%nat), w') /\
  db_file w' = None /\ requests w' = requests w.
Proof.
  intros Hdb w'.
  unfold upsert_repo_rates, upsert_fed_weekly, bind, get_world.
  rewrite Hdb. unfold database_not_found, bind, print, print_line, ret.
  simpl. unfold w', with_stdout. simpl. rewrite <- !app_assoc. simpl.
  by rewrite Hdb.
Qed.

Lemma upsert_without_database_witness :
  upsert_fed_weekly [sample_record] true (with_db None empty_world)
  = (Ok (0%nat, 0%nat),
     with_stdout [Text ("✗ Database not found: " +:+ DB_PATH);
                  Text "Run create_database.py first"]
       (with_db None empty_world)).
Proof.
  exact (proj1 (proj2 (upsert_without_database [] [sample_record] true
                         (with_db None empty_world) eq_refl))).
Defined.

(** ** The sub-ranges of the backfill *)


Section Chunks.

Variables end_ chunk_days : Z.
Hypothesis chunk_days_nonneg : 0 <= chunk_days.



End Chunks.



(** The scenario of the specification: the range 2024-01-01 to 2024-01-05
    with a chunk width of 2 is cut into 01-01 to 01-03 and 01-04 to
    01-05. *)
Example chunks_scenario :
  parse_date "2024-01-01" = Some 738886 /\
  parse_date "2024-01-05" = Some 738890 /\
  fmap (M := option) (fmap (M := list) (prod_map format_date format_date))
    (chunks 5 738886 738890 2)
  = Some [("2024-01-01", "2024-01-03"); ("2024-01-04", "2024-01-05")].
Proof. vm_compute. done. Qed.

(** ** The totals of the backfill *)

Section BackfillTotals.

Context {Data : Type}.
Variable fetch_func : string -> string -> M (list Data).
Variable upsert_func : list Data -> bool -> M (nat * nat).









End BackfillTotals.



(** ** The merge by date *)

Lemma elem_of_sorted (all_dates : gset string) (date : string) :
  date ∈ sorted all_dates <-> date ∈ all_dates.
Proof.
  unfold sorted. rewrite merge_sort_Permutation. apply elem_of_elements.
Qed.

Lemma NoDup_sorted (all_dates : gset string) : NoDup (sorted all_dates).
Proof.
  unfold sorted. rewrite merge_sort_Permutation. apply NoDup_elements.
Qed.

Lemma StronglySorted_le_lt (l : list string) :
  StronglySorted str_le l -> NoDup l -> StronglySorted str_lt l.
Proof.
  induction 1 as [|x l Hs IH Hall]; intros Hnd; [constructor |].
  apply NoDup_cons in Hnd as [Hx Hnd].
  constructor; [by apply IH |].
  rewrite Forall_forall in Hall |- *. intros y Hy.
  apply str_lt_le_ne. split; [by apply Hall |]. by intros ->.
Qed.

(** [sorted] lists each date once, in strictly ascending order. *)
Lemma sorted_ascending (all_dates : gset string) :
  StronglySorted str_lt (sorted all_dates).
Proof.
  apply StronglySorted_le_lt; [| apply NoDup_sorted].
  unfold sorted. apply StronglySorted_merge_sort; apply _.
Qed.

Lemma fmap_fmap_id {A B} (f : A -> B) (g : B -> A) (l : list A) :
  (forall x, g (f x) = x) -> g <$> (f <$> l) = l.
Proof.
  intros Hgf. induction l as [|x l IH]; [done |].
  cbn [fmap list_fmap] in *. by rewrite Hgf, IH.
Qed.

Lemma dates_of_repo_merge (a b c d : gmap string float) :
  rr_date <$> merge_repo_rates a b c d = sorted (dom a ∪ dom b ∪ dom c ∪ dom d).
Proof.
  unfold merge_repo_rates. by apply fmap_fmap_id.
Qed.

Lemma dates_of_fed_merge (include_tga : bool) (a b c : gmap string float) :
  fr_date <$> merge_fed_weekly include_tga a b c
  = sorted (if include_tga then dom a ∪ dom b ∪ dom c else dom a ∪ dom b).
Proof.
  unfold merge_fed_weekly. rewrite fmap_fmap_id by done.
  by destruct include_tga.
Qed.

(** C6: the merge of the date-to-value mappings of a source (four for the
    daily source, two or three for the weekly one) yields the dates of the
    union of their keys, each once, in strictly ascending order; the record
    of a date carries, for each mapping, the value of the mapping at the
    date, null where the mapping has no such date.  The three mappings
    [{'2024-01-01': 1}], [{'2024-01-02': 2}] and [{}] merge into the records
    of 2024-01-01 (1, null) and 2024-01-02 (null, 2). *)
Theorem merge_is_outer_join :
  (forall sofr_data effr_data srf_data onrrp_data : gmap string float,
     let result :=
       merge_repo_rates sofr_data effr_data srf_data onrrp_data in
     StronglySorted str_lt (rr_date <$> result) /\
     NoDup (rr_date <$> result) /\
     (forall date, date ∈ rr_date <$> result <->
        is_Some (sofr_data !! date) \/ is_Some (effr_data !! date) \/
        is_Some (srf_data !! date) \/ is_Some (onrrp_data !! date)) /\
     (forall record, record ∈ result ->
        rr_sofr record = sofr_data !! rr_date record /\
        rr_effr record = effr_data !! rr_date record /\
        rr_srf_usage record = srf_data !! rr_date record /\
        rr_onrrp record = onrrp_data !! rr_date record)) /\
  (forall (include_tga : bool)
          (balance_sheet_data reserves_data tga_data : gmap string float),
     let result :=
       merge_fed_weekly include_tga balance_sheet_data reserves_data
         tga_data in
     StronglySorted str_lt (fr_date <$> result) /\
     NoDup (fr_date <$> result) /\
     (forall date, date ∈ fr_date <$> result <->
        is_Some (balance_sheet_data !! date) \/
        is_Some (reserves_data !! date) \/
        (include_tga = true /\ is_Some (tga_data !! date))) /\
     (forall record, record ∈ result ->
        fr_balance_sheet record = balance_sheet_data !! fr_date record /\
        fr_reserves record = reserves_data !! fr_date record /\
        fr_tga record = if include_tga
                        then Some (tga_data !! fr_date record)
                        else None)) /\
  merge_fed_weekly true {["2024-01-01" := 1%float]}
    {["2024-01-02" := 2%float]} ∅
  = [ {| fr_date := "2024-01-01"; fr_balance_sheet := Some 1%float;
         fr_reserves := None; fr_tga := Some None |};
      {| fr_date := "2024-01-02"; fr_balance_sheet := None;
         fr_reserves := Some 2%float; fr_tga := Some None |} ].
Proof.
  split_and!.
  - intros a b c d result. unfold result.
    rewrite dates_of_repo_merge. split_and!.
    + apply sorted_ascending.
    + apply NoDup_sorted.
    + intros date. rewrite elem_of_sorted, !elem_of_union, !elem_of_dom.
      tauto.
    + intros record Hr. unfold merge_repo_rates in Hr.
      apply list_elem_of_fmap in Hr as (date & -> & _). done.
  - intros include_tga a b c result. unfold result.
    rewrite dates_of_fed_merge. split_and!.
    + apply sorted_ascending.
    + apply NoDup_sorted.
    + intros date. rewrite elem_of_sorted.
      destruct include_tga; rewrite !elem_of_union, !elem_of_dom;
        intuition congruence.
    + intros record Hr. unfold merge_fed_weekly in Hr.
      apply list_elem_of_fmap in Hr as (date & -> & _). done.
  - vm_compute. reflexivity.
Qed.

(** ** The fetch adapters *)

(** A failed request leaves [fetch_data] with an empty list. *)
Lemma fetch_data_fail_soft (endpoint : Endpoint) (start_date end_date : string)
    (w : World) :
  request_fails
    (network w (requests w) (nyfed_request endpoint start_date end_date)) ->
  exists w', fetch_data endpoint start_date end_date w = (Ok [], w').
Proof.
  intros Hfail.
  unfold fetch_data, except_RequestException, try_except, bind, session_get.
  fold (nyfed_request endpoint start_date end_date).
  destruct (network w (requests w) (nyfed_request endpoint start_date end_date))
    as [e | status body]; [eexists; reflexivity |].
  unfold raise_for_status. cbn [fst snd].
  destruct ((400 <=? status) && (status <? 600)) eqn:Hs;
    [eexists; reflexivity |].
  destruct Hfail as [Hfail | ->]; [lia |]. eexists; reflexivity.
Qed.

Lemma fetch_series_fail_soft (float_of_str : string -> option float)
    (api_key : string) (series : Series) (start_date end_date : string)
    (w : World) :
  request_fails
    (network w (requests w)
       (fred_request api_key series start_date end_date)) ->
  exists w',
    fetch_series float_of_str api_key series start_date end_date w
    = (Ok ∅, w').
Proof.
  intros Hfail.
  unfold fetch_series, except_RequestException, try_except, bind, session_get.
  fold (fred_request api_key series start_date end_date).
  destruct (network w (requests w)
              (fred_request api_key series start_date end_date))
    as [e | status body]; [eexists; reflexivity |].
  unfold raise_for_status. cbn [fst snd].
  destruct ((400 <=? status) && (status <? 600)) eqn:Hs;
    [eexists; reflexivity |].
  destruct Hfail as [Hfail | ->]; [lia |]. eexists; reflexivity.
Qed.

(** C9: when the HTTP request of an adapter fails (the transport fails, the
    status is an error, or the body cannot be decoded), the adapter returns
    an empty mapping and does not raise: the four NY Fed adapters and the
    FRED adapter, for every series and every range. *)
Theorem adapters_fail_soft (float_of_str : string -> option float)
    (start_date end_date : string) (w : World) :
  let fails := fun r : Request => request_fails (network w (requests w) r) in
  (fails (nyfed_request ep_sofr start_date end_date) ->
   exists w', fetch_sofr start_date end_date w = (Ok ∅, w')) /\
  (fails (nyfed_request ep_effr start_date end_date) ->
   exists w', fetch_effr start_date end_date w = (Ok ∅, w')) /\
  (fails (nyfed_request ep_srf start_date end_date) ->
   exists w', fetch_srf start_date end_date w = (Ok ∅, w')) /\
  (fails (nyfed_request ep_onrrp start_date end_date) ->
   exists w', fetch_onrrp start_date end_date w = (Ok ∅, w')) /\
  (forall (api_key : string) (series : Series),
     fails (fred_request api_key series start_date end_date) ->
     exists w',
       fetch_series float_of_str api_key series start_date end_date w
       = (Ok ∅, w')).
Proof.
  intros fails. unfold fails.
  split_and!;
    try (intros Hfail;
         destruct (fetch_data_fail_soft _ _ _ _ Hfail) as [w' Hw'];
         exists w';
         unfold fetch_sofr, fetch_effr, fetch_srf, fetch_onrrp, bind;
         by rewrite Hw').
  intros api_key series. apply fetch_series_fail_soft.
Qed.

Lemma adapters_fail_soft_witness :
  exists w', fetch_srf "2024-01-01" "2024-01-05" empty_world = (Ok ∅, w').
Proof.
  exact (proj1 (proj2 (proj2 (adapters_fail_soft no_float "2024-01-01"
                                "2024-01-05" empty_world))) I).
Defined.

(** A value that [float] rejects is not such a failure: its [ValueError]
    leaves [fetch_series]. *)
Lemma fetch_series_bad_value_raises :
  let w := {| db_file := None; fred_api_key := Some "key"; today := 738886;
              network := fun _ _ =>
                Responded 200
                  (Some {| refRates := None; srf := None; repo := None;
                           observations :=
                             Some [{| obs_date := Some "2024-01-03";
                                      obs_value := Some "n/a" |}] |});
              requests := []; stdin := []; stdout := [] |} in
  (fetch_series no_float "key" WALCL "2024-01-01" "2024-01-05" w).1
  = Raise (ValueError "could not convert string to float: 'n/a'").
Proof. vm_compute. reflexivity. Qed.

(** ** The missing API key *)




